(** * eventify-hub: the booking dialog, the event-detail hook and the listing page

    A shallow embedding of
    - [src/components/BookingDialog.tsx] (schema, derived total, open effect,
      submit handler, rendered controls),
    - the [useEvent] hook, and
    - the [Events] listing page,
    followed by the properties stated about them.

    Conventions of the embedding.
    - A JavaScript [number] that comes out of a form field is [NaN] or a
      finite value; finite values are exact rationals ([Q]).  Rounding of
      IEEE doubles is outside the model.
    - Seat counts are integers ([Z]); prices are rationals.
    - Strings are [string]; [length] counts code units.
    - React state is a record that is passed explicitly; every [setX] call is
      a record update.  An [async] function is cut at its [await]: the part
      before it and the continuation after it are separate state
      transformers, so that other operations can run in between.
    - Calls that leave the component (the booking request, the confetti, the
      timer, the HTTP GET) are recorded in an effect trace. *)

From Stdlib Require Import ZArith QArith Bool List Lia.
From Stdlib Require Import Strings.Ascii Strings.String Numbers.DecimalString.
Import ListNotations.

Open Scope string_scope.

(* ------------------------------------------------------------------ *)
(** ** JavaScript values used by the code *)

Module Js.

(** A [number] as produced by [valueAsNumber]: [NaN] for an empty or
    malformed field, a finite value otherwise. *)
Inductive number : Type :=
| NaN
| Num (q : Q).

(** [x > a] between a number and an integer count; any comparison with
    [NaN] is [false]. *)
Definition gtZ (x : number) (a : Z) : bool :=
  match x with
  | NaN => false
  | Num q => negb (Qle_bool q (inject_Z a))
  end.

(** [x < c], used by zod's [min] check ([input.data < check.value]). *)
Definition ltQ (x : number) (c : Q) : bool :=
  match x with
  | NaN => false
  | Num q => negb (Qle_bool c q)
  end.

(** Truthiness of a number: [NaN] and zero are falsy. *)
Definition truthy (x : number) : bool :=
  match x with
  | NaN => false
  | Num q => negb (Qeq_bool q 0)
  end.

(** [x || d] for a number [x] and a finite default [d]. *)
Definition orDefault (x : number) (d : Q) : Q :=
  match x with
  | NaN => d
  | Num q => if Qeq_bool q 0 then d else q
  end.

(** [`${a}`] for an integer-valued number: its decimal digits, with a
    leading minus sign when negative. *)
Definition showZ (a : Z) : string :=
  NilZero.string_of_int (Z.to_int a).

(** [s || d] for a possibly absent string: the empty string is falsy. *)
Definition strOr (s : option string) (d : string) : string :=
  match s with
  | Some m => if String.eqb m "" then d else m
  | None => d
  end.

(** Truthiness of a possibly absent string: [undefined] and the empty
    string are falsy. *)
Definition strTruthy (s : option string) : bool :=
  match s with
  | Some m => negb (String.eqb m "")
  | None => false
  end.

End Js.

Import Js.

(* ------------------------------------------------------------------ *)
(** ** Data model *)

(** The [Event] record of [@/types/api], with the fields the listing page's
    object literals carry and the dialog reads.  The two seat counts are
    integers, the price is a rational. *)
Record Event : Type := {
  id : string;
  title : string;
  description : string;
  location : string;
  date : string;
  availableSeats : Z;
  totalSeats : Z;
  price : Q;
  image : string;
  gradient : string
}.

(** [BookingFormData = z.infer<typeof bookingSchema>]. *)
Record BookingFormData : Type := {
  name : string;
  email : string;
  mobile : string;
  quantity : number
}.

(** The argument of [createBooking.mutateAsync]. *)
Record BookingRequest : Type := {
  req_eventId : string;
  req_name : string;
  req_email : string;
  req_mobile : string;
  req_quantity : number
}.

(** [useState<"idle" | "success" | "error">]. *)
Inductive BookingStatus : Type := idle | success | error.

Definition BookingStatus_eqb (a b : BookingStatus) : bool :=
  match a, b with
  | idle, idle | success, success | error, error => true
  | _, _ => false
  end.

(* ------------------------------------------------------------------ *)
(** ** The validation schema *)

Module Zod.

Definition inRange (lo hi : nat) (c : ascii) : bool :=
  let n := nat_of_ascii c in (lo <=? n)%nat && (n <=? hi)%nat.

(** [[A-Z]] under the [i] flag. *)
Definition isLetter (c : ascii) : bool := inRange 65 90 c || inRange 97 122 c.
Definition isDigit (c : ascii) : bool := inRange 48 57 c.
Definition isAlnum (c : ascii) : bool := isLetter c || isDigit c.

Fixpoint member (c : ascii) (s : string) : bool :=
  match s with
  | EmptyString => false
  | String d s' => Ascii.eqb c d || member c s'
  end.

(** The three character classes of the pattern: a character of the local
    part, the last character of the local part, a character of a label. *)
Definition isLocalChar (c : ascii) : bool := isAlnum c || member c "_'+-.".
Definition isLocalLast (c : ascii) : bool := isAlnum c || member c "_+-".
Definition isLabelChar (c : ascii) : bool := isAlnum c || member c "-".

Fixpoint all (p : ascii -> bool) (s : string) : bool :=
  match s with
  | EmptyString => true
  | String c s' => p c && all p s'
  end.

Fixpoint last (s : string) : option ascii :=
  match s with
  | EmptyString => None
  | String c EmptyString => Some c
  | String _ s' => last s'
  end.

(** Do two dots in a row occur in [s]? *)
Fixpoint hasDotDot (s : string) : bool :=
  match s with
  | String "." (String "." _ as s') => true
  | String _ s' => hasDotDot s'
  | EmptyString => false
  end.

(** Cut [s] at the first occurrence of [sep]. *)
Fixpoint cut (sep : ascii) (s : string) : option (string * string) :=
  match s with
  | EmptyString => None
  | String c s' =>
      if Ascii.eqb c sep then Some ("", s')
      else match cut sep s' with
           | Some (l, r) => Some (String c l, r)
           | None => None
           end
  end.

(** [s.split(sep)]. *)
Fixpoint split (sep : ascii) (s : string) : list string :=
  match s with
  | EmptyString => [""]
  | String c s' =>
      if Ascii.eqb c sep then "" :: split sep s'
      else match split sep s' with
           | l :: ls => String c l :: ls
           | [] => [String c ""]
           end
  end.

(** One label of the domain: a letter or digit, then letters, digits and
    hyphens. *)
Definition isLabel (l : string) : bool :=
  match l with
  | EmptyString => false
  | String c l' => isAlnum c && all isLabelChar l'
  end.

(** The last label: two letters or more. *)
Definition isTld (l : string) : bool :=
  (2 <=? String.length l)%nat && all isLetter l.

(** The domain: one label or more, each followed by a dot, then the last
    label, up to the end of the string. *)
Definition isDomain (d : string) : bool :=
  match rev (split "." d) with
  | tld :: l :: ls => isTld tld && forallb isLabel (l :: ls)
  | _ => false
  end.

(** The local part: not empty, no leading dot, no two dots in a row, only
    characters of the local class, and a last character that is not a dot
    or a quote. *)
Definition isLocal (l : string) : bool :=
  match l with
  | EmptyString => false
  | String c _ =>
      negb (Ascii.eqb c ".") && negb (hasDotDot l) && all isLocalChar l
      && match last l with Some e => isLocalLast e | None => false end
  end.

(** The check behind [z.string().email(msg)].  zod is a library outside
    the repository; this is the address pattern it tests, case
    insensitive, which the specification calls standard address syntax:
    local part, an at sign, domain.  No class of the pattern contains the
    at sign, so the address is cut at its first one. *)
Definition isEmail (s : string) : bool :=
  match cut "@" s with
  | Some (l, d) => isLocal l && isDomain d
  | None => false
  end.

(** [z.string().min(n, msg)]: an issue when [input.data.length < n]. *)
Definition stringMin (n : nat) (msg : string) (s : string) : option string :=
  if (String.length s <? n)%nat then Some msg else None.

(** [z.string().email(msg)]. *)
Definition stringEmail (msg : string) (s : string) : option string :=
  if isEmail s then None else Some msg.

(** [z.number().min(c, msg)]: [NaN] is not of type number for zod; the
    [min] check raises an issue when [input.data < c]. *)
Definition numberMin (c : Q) (msg : string) (x : number) : option string :=
  match x with
  | NaN => Some "Expected number, received nan"
  | Num _ => if ltQ x c then Some msg else None
  end.

End Zod.

(** [formState.errors]: at most one message per field. *)
Record FieldErrors : Type := {
  err_name : option string;
  err_email : option string;
  err_mobile : option string;
  err_quantity : option string
}.

Definition noErrors : FieldErrors :=
  {| err_name := None; err_email := None; err_mobile := None; err_quantity := None |}.

(** [const bookingSchema = z.object({...})], run over a form's values. *)
Definition bookingSchema (d : BookingFormData) : FieldErrors :=
  {| err_name := Zod.stringMin 2 "Name must be at least 2 characters" (name d);
     err_email := Zod.stringEmail "Invalid email address" (email d);
     err_mobile := Zod.stringMin 10 "Mobile number must be at least 10 digits" (mobile d);
     err_quantity := Zod.numberMin 1 "Quantity must be at least 1" (quantity d) |}.

Definition isNone {A : Type} (o : option A) : bool :=
  match o with None => true | Some _ => false end.

(** The schema accepts the values: no field has an issue. *)
Definition valid (d : BookingFormData) : bool :=
  let e := bookingSchema d in
  isNone (err_name e) && isNone (err_email e)
  && isNone (err_mobile e) && isNone (err_quantity e).

(* ------------------------------------------------------------------ *)
(** ** Promises and thrown values *)

(** A caught value [error: any], as far as the code inspects it: the value
    may be nullish, and its [message] may be missing. *)
Record JsError : Type := { message : option string }.

(** [error?.message]. *)
Definition messageOf (e : option JsError) : option string :=
  match e with
  | Some x => message x
  | None => None
  end.

(** How an awaited promise settles. *)
Inductive Settled (A : Type) : Type :=
| Fulfilled (a : A)
| RejectedWith (e : option JsError).

Arguments Fulfilled {A} a.
Arguments RejectedWith {A} e.

(* ------------------------------------------------------------------ *)
(** ** The booking dialog *)

Module Dialog.

(** Calls on the props [onOpenChange] and [onSuccess]. *)
Inductive PropCall : Type :=
| OnOpenChange (o : bool)
| OnSuccess.

(** What the submit handler does outside the component. *)
Inductive Effect : Type :=
| MutateAsync (r : BookingRequest)
| Confetti (particleCount spread : Z) (originY : Q)
| SetTimeout (callback : list PropCall) (ms : Z).

(** The component's own state: the two [useState] cells, and the field
    values and errors kept by [useForm]. *)
Record State : Type := {
  bookingStatus : BookingStatus;
  errorMessage : string;
  values : BookingFormData;
  errors : FieldErrors
}.

Definition setBookingStatus (b : BookingStatus) (s : State) : State :=
  {| bookingStatus := b; errorMessage := errorMessage s;
     values := values s; errors := errors s |}.

Definition setErrorMessage (m : string) (s : State) : State :=
  {| bookingStatus := bookingStatus s; errorMessage := m;
     values := values s; errors := errors s |}.

Definition setErrors (e : FieldErrors) (s : State) : State :=
  {| bookingStatus := bookingStatus s; errorMessage := errorMessage s;
     values := values s; errors := e |}.

(** A field of the form changes. *)
Definition setValues (d : BookingFormData) (s : State) : State :=
  {| bookingStatus := bookingStatus s; errorMessage := errorMessage s;
     values := d; errors := errors s |}.

(** The form's values when only [quantity] is given: the text inputs are
    empty. *)
Definition onlyQuantity (q : Q) : BookingFormData :=
  {| name := ""; email := ""; mobile := ""; quantity := Num q |}.

(** [reset({ quantity: 1 })] and the like: new values, no errors. *)
Definition reset (d : BookingFormData) (s : State) : State :=
  setErrors noErrors (setValues d s).

(** The state at mount: [useState("idle")], [useState("")],
    [defaultValues: { quantity: 1 }]. *)
Definition initial : State :=
  {| bookingStatus := idle; errorMessage := "";
     values := onlyQuantity 1; errors := noErrors |}.

(** [const quantity = watch("quantity") || 1]. *)
Definition watchedQuantity (s : State) : Q :=
  orDefault (quantity (values s)) 1.

(** [const totalAmount = event ? event.price * quantity : 0]. *)
Definition totalAmount (event : option Event) (s : State) : Q :=
  match event with
  | Some ev => price ev * watchedQuantity s
  | None => 0
  end.

(** The body of [useEffect(..., [open, reset])]. *)
Definition openEffect (open : bool) (s : State) : State :=
  if open
  then setErrorMessage "" (setBookingStatus idle (reset (onlyQuantity 1) s))
  else s.

(** A render in which the prop [open] goes from [prev] to [next]: the
    effect runs when the dependency changed. *)
Definition rerender (prev next : bool) (s : State) : State :=
  if Bool.eqb prev next then s else openEffect next s.

(** The message of the seat guard. *)
Definition seatMessage (ev : Event) : string :=
  "Only " ++ showZ (availableSeats ev) ++ " seats available. Please reduce quantity.".

(** The argument built for [createBooking.mutateAsync]. *)
Definition requestOf (ev : Event) (data : BookingFormData) : BookingRequest :=
  {| req_eventId := id ev;
     req_name := name data;
     req_email := email data;
     req_mobile := mobile data;
     req_quantity := quantity data |}.

(** [onSubmit] up to its [await]: it has either returned, or called
    [mutateAsync] and is suspended. *)
Inductive Submitted : Type :=
| Returned (s : State)
| Awaiting (s : State) (r : BookingRequest).

Definition onSubmit_begin (event : option Event) (data : BookingFormData)
           (s : State) : Submitted :=
  match event with
  | None => Returned s
  | Some ev =>
      if gtZ (quantity data) (availableSeats ev)
      then Returned (setErrorMessage (seatMessage ev) (setBookingStatus error s))
      else Awaiting s (requestOf ev data)
  end.

Definition fallbackMessage : string := "Booking failed. Please try again.".

(** [onSubmit] from the point where the awaited request settles: the rest
    of the [try] block, or the [catch] block.  It acts on the state of
    that moment. *)
Definition onSubmit_resume {A : Type} (o : Settled A) (s : State)
  : State * list Effect :=
  match o with
  | Fulfilled _ =>
      (setBookingStatus success s,
       [Confetti 100 70 (6 # 10); SetTimeout [OnOpenChange false; OnSuccess] 100])
  | RejectedWith e =>
      (setErrorMessage (strOr (messageOf e) fallbackMessage)
                       (setBookingStatus error s),
       [])
  end.

Section Environment.

(** What the booking request does: for each argument, how the promise
    of [createBooking.mutateAsync] settles. *)
Context {A : Type}.
Variable mutateAsync : BookingRequest -> Settled A.

(** [onSubmit], run to completion with nothing in between. *)
Definition onSubmit (event : option Event) (data : BookingFormData)
           (s : State) : State * list Effect :=
  match onSubmit_begin event data s with
  | Returned s' => (s', [])
  | Awaiting s' r =>
      let (s'', fx) := onSubmit_resume (mutateAsync r) s' in
      (s'', MutateAsync r :: fx)
  end.

(** [handleSubmit(onSubmit)]: the resolver runs the schema over the
    field values; the handler is called only when no field fails. *)
Definition handleSubmit (event : option Event) (s : State)
  : State * list Effect :=
  if valid (values s)
  then onSubmit event (values s) (setErrors noErrors s)
  else (setErrors (bookingSchema (values s)) s, []).

End Environment.

(** [handleSubmit(onSubmit)] up to the [await]. *)
Definition handleSubmit_begin (event : option Event) (s : State) : Submitted :=
  if valid (values s)
  then onSubmit_begin event (values s) (setErrors noErrors s)
  else Returned (setErrors (bookingSchema (values s)) s).

(** What the component renders, as far as it depends on state and props. *)
Record View : Type := {
  v_open : bool;
  v_title : string;
  v_successBanner : bool;
  v_errorBanner : option string;
  v_fieldMessages : FieldErrors;
  v_inputsDisabled : bool;
  v_quantityMax : Z;
  v_available : string;
  v_totalAmount : Q;
  v_cancelDisabled : bool;
  v_submitDisabled : bool;
  v_submitLabel : string
}.

(** The component: [null] without an event.  [isPending] is
    [createBooking.isPending], true while a booking request is in flight.
    The total is shown through [toFixed(2)] behind a dollar sign; the view
    keeps the number. *)
Definition BookingDialog (event : option Event) (open : bool)
           (isPending : bool) (s : State) : option View :=
  match event with
  | None => None
  | Some ev =>
      Some {| v_open := open;
              v_title := "Book Tickets - " ++ title ev;
              v_successBanner := BookingStatus_eqb (bookingStatus s) success;
              v_errorBanner :=
                if BookingStatus_eqb (bookingStatus s) error
                then Some (errorMessage s) else None;
              v_fieldMessages := errors s;
              v_inputsDisabled := isPending;
              v_quantityMax := availableSeats ev;
              v_available := "Available: " ++ showZ (availableSeats ev) ++ " seats";
              v_totalAmount := totalAmount event s;
              v_cancelDisabled := isPending;
              v_submitDisabled := isPending || (availableSeats ev =? 0)%Z;
              v_submitLabel :=
                if isPending then "Processing..." else "Confirm Booking" |}
  end.

(** *** Runs of the dialog

    A configuration holds the prop [open] of the last render, the state,
    the number of booking requests that have not settled yet, and the
    effects so far (oldest first). *)
Record Config : Type := {
  c_open : bool;
  c_state : State;
  c_inflight : nat;
  c_trace : list Effect
}.

(** The operations on a mounted dialog: the parent renders it with a new
    [open]; the user edits the fields; the form is submitted (with the
    [event] prop of that render); a request in flight settles. *)
Inductive Op : Type :=
| SetOpen (o : bool)
| Edit (d : BookingFormData)
| Submit (event : option Event)
| Settle (o : Settled unit).

(** Mounting runs the effect once with the first [open]. *)
Definition mount (open : bool) : Config :=
  {| c_open := open; c_state := openEffect open initial;
     c_inflight := 0; c_trace := [] |}.

(** One operation; [Settle] needs a request in flight. *)
Definition step (c : Config) (op : Op) : option Config :=
  match op with
  | SetOpen o =>
      Some {| c_open := o; c_state := rerender (c_open c) o (c_state c);
              c_inflight := c_inflight c; c_trace := c_trace c |}
  | Edit d =>
      Some {| c_open := c_open c; c_state := setValues d (c_state c);
              c_inflight := c_inflight c; c_trace := c_trace c |}
  | Submit event =>
      match handleSubmit_begin event (c_state c) with
      | Returned s' =>
          Some {| c_open := c_open c; c_state := s';
                  c_inflight := c_inflight c; c_trace := c_trace c |}
      | Awaiting s' r =>
          Some {| c_open := c_open c; c_state := s';
                  c_inflight := S (c_inflight c);
                  c_trace := c_trace c ++ [MutateAsync r] |}
      end
  | Settle o =>
      match c_inflight c with
      | O => None
      | S n =>
          let (s', fx) := onSubmit_resume o (c_state c) in
          Some {| c_open := c_open c; c_state := s';
                  c_inflight := n; c_trace := c_trace c ++ fx |}
      end
  end.

Fixpoint run (c : Config) (ops : list Op) : option Config :=
  match ops with
  | [] => Some c
  | op :: ops' =>
      match step c op with
      | Some c' => run c' ops'
      | None => None
      end
  end.

(** Modelled from the spec: [useCreateBooking] is not among the sources.
    The specification has its operation "in flight" from the call until it
    settles, and the controls disabled for that time; [isPending] is that
    flag, read off a configuration. *)
Definition isPending (c : Config) : bool := (0 <? c_inflight c)%nat.

(** The configurations a mounted dialog can get into. *)
Inductive Reachable : Config -> Prop :=
| reach_mount (o : bool) : Reachable (mount o)
| reach_step (c : Config) (op : Op) (c' : Config) :
    Reachable c -> step c op = Some c' -> Reachable c'.

(** The status in a configuration. *)
Definition statusOf (c : Config) : BookingStatus := bookingStatus (c_state c).

(** An error status comes with a message. *)
Definition ErrorHasMessage (s : State) : Prop :=
  bookingStatus s = error -> errorMessage s <> "".

End Dialog.

(* ------------------------------------------------------------------ *)
(** ** Reading an effect trace *)

Module Trace.

Import Dialog.

Definition isRequest (e : Effect) : bool :=
  match e with MutateAsync _ => true | _ => false end.

Definition isConfetti (e : Effect) : bool :=
  match e with Confetti _ _ _ => true | _ => false end.

Definition isTimer (e : Effect) : bool :=
  match e with SetTimeout _ _ => true | _ => false end.

(** How many effects of a kind a trace holds. *)
Definition count (p : Effect -> bool) (t : list Effect) : nat :=
  List.length (filter p t).

(** The one timer the handler sets: after 100 ms, [onOpenChange(false)] and
    then [onSuccess()]. *)
Definition closingTimer : Effect := SetTimeout [OnOpenChange false; OnSuccess] 100.

(** The books of a configuration balance: one timer per confetti, every
    timer is the closing timer, and confetti plus requests still in flight
    do not exceed the requests sent. *)
Definition Accounted (c : Config) : Prop :=
  count isConfetti (c_trace c) = count isTimer (c_trace c)
  /\ (count isConfetti (c_trace c) + c_inflight c <= count isRequest (c_trace c))%nat
  /\ Forall (fun e => isTimer e = true -> e = closingTimer) (c_trace c).

End Trace.

(* ------------------------------------------------------------------ *)
(** ** The event-detail hook *)

Module Query.

(** The envelope [ApiResponse<T>], as far as the hook reads it. *)
Record ApiResponse (T : Type) : Type := { resp_data : T }.
Arguments resp_data {T} _.

Inductive NetCall : Type :=
| ApiGet (url : string).

Inductive QueryStatus : Type := st_pending | st_error | st_success.
Inductive FetchStatus : Type := fs_idle | fs_fetching.

(** The options object handed to [useQuery]; [queryFn] is a thunk that
    reports the network calls it made and how its promise settled. *)
Record QueryOptions (T : Type) : Type := {
  queryKey : list (option string);
  queryFn : unit -> list NetCall * Settled T;
  enabled : bool
}.
Arguments queryKey {T} _.
Arguments queryFn {T} _ _.
Arguments enabled {T} _.

Record UseQueryResult (T : Type) : Type := {
  status : QueryStatus;
  fetchStatus : FetchStatus;
  data : option T;
  error : option JsError
}.
Arguments status {T} _.
Arguments fetchStatus {T} _.
Arguments data {T} _.
Arguments error {T} _.

Definition isError {T : Type} (r : UseQueryResult T) : bool :=
  match status r with st_error => true | _ => false end.

(** [useQuery] of TanStack Query, a library outside the repository, as far
    as the hook relies on it: a query with [enabled: false] does not run
    its function and stays pending and idle, without data or error; an
    enabled query runs its function and reports how it settled.  The
    result is the one the hook yields once nothing is fetching any more;
    the cache and the repetition of a failed fetch are not modelled. *)
Definition useQuery {T : Type} (o : QueryOptions T)
  : UseQueryResult T * list NetCall :=
  if enabled o then
    let (calls, r) := queryFn o tt in
    (match r with
     | Fulfilled a =>
         {| status := st_success; fetchStatus := fs_idle;
            data := Some a; error := None |}
     | RejectedWith e =>
         {| status := st_error; fetchStatus := fs_idle;
            data := None; error := e |}
     end, calls)
  else
    ({| status := st_pending; fetchStatus := fs_idle;
        data := None; error := None |}, []).

Section Api.

(** How [apiClient.get(url)] settles. *)
Variable apiGet : string -> Settled (ApiResponse Event).

(** The [queryFn] of [useEvent]; [!id] holds for [undefined] and for the
    empty string, and the throw rejects the promise before any call. *)
Definition eventQueryFn (id : option string) (_ : unit)
  : list NetCall * Settled Event :=
  match id with
  | Some i =>
      if String.eqb i ""
      then ([], RejectedWith (Some {| message := Some "Event ID is required" |}))
      else
        let url := "/events/" ++ i in
        match apiGet url with
        | Fulfilled response => ([ApiGet url], Fulfilled (resp_data response))
        | RejectedWith e => ([ApiGet url], RejectedWith e)
        end
  | None => ([], RejectedWith (Some {| message := Some "Event ID is required" |}))
  end.

Definition eventQueryOptions (id : option string) : QueryOptions Event :=
  {| queryKey := [Some "event"; id];
     queryFn := eventQueryFn id;
     enabled := strTruthy id |}.

(** [export const useEvent = (id) => useQuery({...})]. *)
Definition useEvent (id : option string)
  : UseQueryResult Event * list NetCall :=
  useQuery (eventQueryOptions id).

End Api.

End Query.

(* ------------------------------------------------------------------ *)
(** ** The listing page *)

Module Listing.

(** The imported image assets. *)
Definition eventTech : string := "@/assets/event-tech.jpg".
Definition eventMusic : string := "@/assets/event-music.jpg".
Definition eventBusiness : string := "@/assets/event-business.jpg".

Definition allEvents : list Event :=
  [ {| id := "1";
       title := "Tech Innovation Summit 2025";
       description := "Join industry leaders discussing the future of AI, blockchain, and quantum computing in this groundbreaking summit.";
       location := "San Francisco, CA";
       date := "2025-03-15T09:00:00";
       availableSeats := 150;
       totalSeats := 500;
       price := 299;
       image := eventTech;
       gradient := "bg-gradient-blue" |};
    {| id := "2";
       title := "Summer Music Festival";
       description := "Experience three days of incredible live music from top artists across multiple genres under the stars.";
       location := "Austin, TX";
       date := "2025-06-20T18:00:00";
       availableSeats := 45;
       totalSeats := 1000;
       price := 199;
       image := eventMusic;
       gradient := "bg-gradient-pink" |};
    {| id := "3";
       title := "Business Networking Gala";
       description := "Connect with entrepreneurs, investors, and business leaders in an elegant evening of networking and insights.";
       location := "New York, NY";
       date := "2025-04-10T19:00:00";
       availableSeats := 200;
       totalSeats := 300;
       price := 149;
       image := eventBusiness;
       gradient := "bg-gradient-secondary" |};
    {| id := "4";
       title := "Digital Marketing Conference";
       description := "Learn the latest strategies in SEO, social media, and content marketing from industry experts.";
       location := "Miami, FL";
       date := "2025-05-05T10:00:00";
       availableSeats := 80;
       totalSeats := 250;
       price := 179;
       image := eventTech;
       gradient := "bg-gradient-primary" |};
    {| id := "5";
       title := "Jazz & Blues Night";
       description := "An intimate evening with renowned jazz and blues musicians in a historic venue.";
       location := "New Orleans, LA";
       date := "2025-04-22T20:00:00";
       availableSeats := 120;
       totalSeats := 200;
       price := 89;
       image := eventMusic;
       gradient := "bg-gradient-blue" |};
    {| id := "6";
       title := "Startup Pitch Competition";
       description := "Watch innovative startups pitch their ideas to top investors and win funding opportunities.";
       location := "Boston, MA";
       date := "2025-05-18T14:00:00";
       availableSeats := 180;
       totalSeats := 350;
       price := 99;
       image := eventBusiness;
       gradient := "bg-gradient-pink" |} ].

(** The three [useState] cells of the page. *)
Record Filters : Type := {
  searchTerm : string;
  locationFilter : string;
  dateFilter : string
}.

(** [useState("")], [useState("all")], [useState("all")]. *)
Definition initialFilters : Filters :=
  {| searchTerm := ""; locationFilter := "all"; dateFilter := "all" |}.

(** One cell of the grid: the [motion.div] with its key and delay around
    an [EventCard] that receives the event's fields. *)
Record Cell : Type := {
  cell_key : string;
  cell_delay : Q;
  cell_card : Event
}.

(** [xs.map((x, index) => f x index)], counting from [i]. *)
Fixpoint mapFrom {X Y : Type} (f : X -> nat -> Y) (i : nat) (xs : list X) : list Y :=
  match xs with
  | [] => []
  | x :: xs' => f x i :: mapFrom f (S i) xs'
  end.

Definition mapi {X Y : Type} (f : X -> nat -> Y) (xs : list X) : list Y :=
  mapFrom f 0 xs.

(** What the page renders, as far as it depends on state: the three
    filter controls, the counter and the grid. *)
Record Page : Type := {
  p_search : string;
  p_location : string;
  p_date : string;
  p_showing : nat;
  p_grid : list Cell
}.

Definition Events (f : Filters) : Page :=
  {| p_search := searchTerm f;
     p_location := locationFilter f;
     p_date := dateFilter f;
     p_showing := List.length allEvents;
     p_grid :=
       mapi (fun event index =>
               {| cell_key := id event;
                  cell_delay := inject_Z (Z.of_nat index) * (1 # 10);
                  cell_card := event |})
            allEvents |}.

End Listing.

(* ------------------------------------------------------------------ *)
(** ** Concrete inputs *)

Module Sample.

(** The first entry of [allEvents]. *)
Definition summit : Event :=
  {| id := "1";
     title := "Tech Innovation Summit 2025";
     description := "Join industry leaders discussing the future of AI, blockchain, and quantum computing in this groundbreaking summit.";
     location := "San Francisco, CA";
     date := "2025-03-15T09:00:00";
     availableSeats := 150;
     totalSeats := 500;
     price := 299;
     image := Listing.eventTech;
     gradient := "bg-gradient-blue" |}.

(** A form that passes the schema, with the given quantity. *)
Definition form (q : number) : BookingFormData :=
  {| name := "Al"; email := "a@b.com"; mobile := "0123456789"; quantity := q |}.

(** A booking request that is always accepted, and one that is always
    rejected with a message. *)
Definition accepting (_ : BookingRequest) : Settled unit := Fulfilled tt.

Definition declining (_ : BookingRequest) : Settled unit :=
  RejectedWith (Some {| message := Some "Payment declined" |}).

(** A session: the dialog opens, a booking for 151 of the 150 seats is
    turned down by the seat guard, the quantity is corrected to 2 and the
    form is submitted again. *)
Definition retry : list Dialog.Op :=
  [ Dialog.SetOpen true;
    Dialog.Edit (form (Num 151));
    Dialog.Submit (Some summit);
    Dialog.Edit (form (Num 2));
    Dialog.Submit (Some summit) ].

(** An event without seats left. *)
Definition soldOut : Event :=
  {| id := "9";
     title := "Closing Night";
     description := "";
     location := "Boston, MA";
     date := "2025-07-01T20:00:00";
     availableSeats := 0;
     totalSeats := 80;
     price := 45;
     image := Listing.eventMusic;
     gradient := "bg-gradient-pink" |}.

(** An API without a reachable server. *)
Definition offline (_ : string) : Settled (Query.ApiResponse Event) :=
  RejectedWith (Some {| message := Some "Network Error" |}).

End Sample.

(* ================================================================== *)
(** * Properties *)

Import Dialog.

(** ** Comparisons and fallbacks *)

Lemma gtZ_spec (x : number) (a : Z) :
  gtZ x a = true <-> exists q, x = Num q /\ (inject_Z a < q)%Q.
Proof.
  destruct x as [|q]; simpl.
  - split; [discriminate | intros (q & H & _); discriminate].
  - rewrite negb_true_iff. split.
    + intros H. exists q. split; [reflexivity|].
      apply Qnot_le_lt. intros Hle. apply Qle_bool_iff in Hle. congruence.
    + intros (q' & Hq & Hlt). injection Hq as <-.
      destruct (Qle_bool q (inject_Z a)) eqn:E; [|reflexivity].
      apply Qle_bool_iff in E. exfalso. exact (Qlt_not_le _ _ Hlt E).
Qed.

Lemma strOr_nonempty (o : option string) (d : string) :
  d <> "" -> strOr o d <> "".
Proof.
  intros Hd. destruct o as [m|]; simpl; [|exact Hd].
  destruct (String.eqb m "") eqn:E; [exact Hd|].
  now apply String.eqb_neq.
Qed.

Lemma strOr_message (m d : string) : m <> "" -> strOr (Some m) d = m.
Proof.
  intros Hm. simpl. apply String.eqb_neq in Hm. now rewrite Hm.
Qed.

Lemma seatMessage_nonempty (ev : Event) : seatMessage ev <> "".
Proof. unfold seatMessage. simpl. discriminate. Qed.

(** ** The seat guard *)

Section SeatGuard.

Context {A : Type}.
Variable mutateAsync : BookingRequest -> Settled A.

Lemma onSubmit_begin_guard (ev : Event) (data : BookingFormData) (s : State) :
  gtZ (quantity data) (availableSeats ev) = true ->
  onSubmit_begin (Some ev) data s
  = Returned (setErrorMessage (seatMessage ev) (setBookingStatus error s)).
Proof. intros H. unfold onSubmit_begin. now rewrite H. Qed.

Lemma onSubmit_begin_pass (ev : Event) (data : BookingFormData) (s : State) :
  gtZ (quantity data) (availableSeats ev) = false ->
  onSubmit_begin (Some ev) data s = Awaiting s (requestOf ev data).
Proof. intros H. unfold onSubmit_begin. now rewrite H. Qed.

(** Whatever the schema says, a submission whose quantity exceeds the
    seats issues no effect. *)
Lemma handleSubmit_guard_silent (ev : Event) (s : State) :
  gtZ (quantity (values s)) (availableSeats ev) = true ->
  snd (handleSubmit mutateAsync (Some ev) s) = [].
Proof.
  intros H. unfold handleSubmit, onSubmit.
  destruct (valid (values s)); [|reflexivity].
  now rewrite onSubmit_begin_guard.
Qed.

End SeatGuard.

(** C1. For every call of the submit handler on an event with [a] available
    seats and a form whose quantity [q] exceeds [a]: the handler returns
    before its [await], the status is "error", the message is
    "Only a seats available. Please reduce quantity." (which the error
    banner then shows), and the effect trace is empty, so
    [createBooking.mutateAsync] is not called; the same holds for the trace
    when the form goes through [handleSubmit]. *)
Theorem seat_guard_rejects_locally :
  forall (A : Type) (mutateAsync : BookingRequest -> Settled A)
         (ev : Event) (data : BookingFormData) (s : State) (q : Q)
         (open pending : bool),
    quantity data = Num q ->
    (inject_Z (availableSeats ev) < q)%Q ->
    let s' := fst (onSubmit mutateAsync (Some ev) data s) in
    onSubmit_begin (Some ev) data s = Returned s'
    /\ bookingStatus s' = error
    /\ errorMessage s'
       = "Only " ++ showZ (availableSeats ev)
                 ++ " seats available. Please reduce quantity."
    /\ option_map v_errorBanner (BookingDialog (Some ev) open pending s')
       = Some (Some (errorMessage s'))
    /\ values s' = values s
    /\ snd (onSubmit mutateAsync (Some ev) data s) = []
    /\ snd (handleSubmit mutateAsync (Some ev) (setValues data s)) = [].
Proof.
  intros A mutateAsync ev data s q open pending Hq Hlt.
  assert (G : gtZ (quantity data) (availableSeats ev) = true)
    by (apply gtZ_spec; now exists q).
  unfold onSubmit. rewrite (onSubmit_begin_guard ev data s G). simpl.
  repeat split; try reflexivity.
  now apply handleSubmit_guard_silent.
Qed.

Lemma seat_guard_rejects_locally_witness :
  (inject_Z (availableSeats Sample.summit) < 151)%Q
  /\ errorMessage
       (fst (onSubmit Sample.accepting (Some Sample.summit)
                      (Sample.form (Num 151)) initial))
     = "Only 150 seats available. Please reduce quantity."
  /\ snd (onSubmit Sample.accepting (Some Sample.summit)
                   (Sample.form (Num 151)) initial) = [].
Proof.
  split; [reflexivity|].
  destruct (seat_guard_rejects_locally unit Sample.accepting Sample.summit
              (Sample.form (Num 151)) initial 151 true false
              eq_refl eq_refl)
    as (_ & _ & Hm & _ & _ & Hfx & _).
  split; [exact Hm | exact Hfx].
Defined.

(** ** The open effect *)

Lemma openEffect_true (s : State) :
  openEffect true s
  = {| bookingStatus := idle; errorMessage := "";
       values := onlyQuantity 1; errors := noErrors |}.
Proof. reflexivity. Qed.

Lemma rerender_open (s : State) : rerender false true s = openEffect true s.
Proof. reflexivity. Qed.

(** C3. Whatever the status, the message and the form content before, the
    render in which [open] goes from false to true leaves the form at its
    defaults with quantity 1, the status "idle" and the message empty; as an
    operation on a closed dialog, [SetOpen true] does exactly that. *)
Theorem reopen_resets :
  forall (s : State),
    let s' := rerender false true s in
    values s' = onlyQuantity 1
    /\ quantity (values s') = Num 1
    /\ errors s' = noErrors
    /\ bookingStatus s' = idle
    /\ errorMessage s' = ""
    /\ forall (n : nat) (t : list Effect),
         step {| c_open := false; c_state := s; c_inflight := n; c_trace := t |}
              (SetOpen true)
         = Some {| c_open := true; c_state := s'; c_inflight := n; c_trace := t |}.
Proof.
  intros s. cbv zeta. rewrite rerender_open, openEffect_true. simpl.
  repeat split; reflexivity.
Qed.

(** ** The failure path *)

(** C4. For every submission that passes the seat guard and whose request is
    rejected: the status is "error"; when the rejection carries a non-empty
    message [m], the message kept and shown in the banner is exactly [m];
    when it carries none (a nullish value, no [message], or an empty one) it
    is "Booking failed. Please try again."; the field values are those of
    before; and the only effect is the request itself: no timer is set and
    [onOpenChange] is not called, so the dialog stays open. *)
Theorem rejection_shows_message :
  forall (A : Type) (mutateAsync : BookingRequest -> Settled A)
         (ev : Event) (data : BookingFormData) (s : State)
         (e : option JsError) (open pending : bool),
    gtZ (quantity data) (availableSeats ev) = false ->
    mutateAsync (requestOf ev data) = RejectedWith e ->
    let s' := fst (onSubmit mutateAsync (Some ev) data s) in
    bookingStatus s' = error
    /\ (forall m, messageOf e = Some m -> m <> "" ->
                  errorMessage s' = m
                  /\ option_map v_errorBanner
                                (BookingDialog (Some ev) open pending s')
                     = Some (Some m))
    /\ (messageOf e = None \/ messageOf e = Some "" ->
        errorMessage s' = "Booking failed. Please try again.")
    /\ values s' = values s
    /\ errors s' = errors s
    /\ snd (onSubmit mutateAsync (Some ev) data s)
       = [MutateAsync (requestOf ev data)].
Proof.
  intros A mutateAsync ev data s e open pending Hg Hrej.
  unfold onSubmit. rewrite (onSubmit_begin_pass ev data s Hg), Hrej. simpl.
  split; [reflexivity|]. split; [|split; [|repeat split]].
  - intros m Hm Hne. rewrite Hm, (strOr_message _ _ Hne). now split.
  - intros [Hm | Hm]; rewrite Hm; reflexivity.
Qed.

Lemma rejection_shows_message_witness :
  gtZ (quantity (Sample.form (Num 2))) (availableSeats Sample.summit) = false
  /\ Sample.declining (requestOf Sample.summit (Sample.form (Num 2)))
     = RejectedWith (Some {| message := Some "Payment declined" |})
  /\ errorMessage
       (fst (onSubmit Sample.declining (Some Sample.summit)
                      (Sample.form (Num 2))
                      (setValues (Sample.form (Num 2)) initial)))
     = "Payment declined"
  /\ values
       (fst (onSubmit Sample.declining (Some Sample.summit)
                      (Sample.form (Num 2))
                      (setValues (Sample.form (Num 2)) initial)))
     = Sample.form (Num 2).
Proof.
  split; [reflexivity|]. split; [reflexivity|].
  destruct (rejection_shows_message unit Sample.declining Sample.summit
              (Sample.form (Num 2))
              (setValues (Sample.form (Num 2)) initial)
              (Some {| message := Some "Payment declined" |}) true false
              eq_refl eq_refl)
    as (_ & Hm & _ & Hv & _).
  split; [|exact Hv].
  apply (Hm "Payment declined" eq_refl). discriminate.
Defined.

(** ** The derived total *)

Lemma orDefault_nonzero (q d : Q) : ~ (q == 0)%Q -> orDefault (Num q) d = q.
Proof.
  intros H. simpl. destruct (Qeq_bool q 0) eqn:E; [|reflexivity].
  apply Qeq_bool_iff in E. contradiction.
Qed.

Lemma orDefault_falsy (x : number) (d : Q) : truthy x = false -> orDefault x d = d.
Proof.
  destruct x as [|q]; simpl; [reflexivity|].
  rewrite negb_false_iff. now intros ->.
Qed.

(** C5, as stated, fails when the quantity entered is zero: for the event
    priced 299 the total is 299 and not 299 x 0. *)
Lemma total_at_zero_quantity :
  (totalAmount (Some Sample.summit) (setValues (Sample.form (Num 0)) initial)
   == 299)%Q
  /\ ~ (totalAmount (Some Sample.summit) (setValues (Sample.form (Num 0)) initial)
        == price Sample.summit * 0)%Q.
Proof.
  split.
  - reflexivity.
  - intros H. vm_compute in H. discriminate H.
Qed.

(** C5, amended. For every unit price [p] and every quantity [q] entered in
    the form that is a number other than zero, the total is [p * q], and it
    is a function of the form's current value, so every change of the
    quantity gives the total of the new value; when the field is empty
    ([NaN]) or zero the quantity is taken as 1 and the total is [p * 1]. *)
Theorem total_is_price_times_quantity :
  forall (ev : Event) (s : State) (d : BookingFormData) (open pending : bool),
    let s' := setValues d s in
    (forall q, quantity d = Num q -> ~ (q == 0)%Q ->
               totalAmount (Some ev) s' = (price ev * q)%Q
               /\ option_map v_totalAmount (BookingDialog (Some ev) open pending s')
                  = Some (price ev * q)%Q)
    /\ (truthy (quantity d) = false ->
        totalAmount (Some ev) s' = (price ev * 1)%Q).
Proof.
  intros ev s d open pending. cbv zeta. split.
  - intros q Hq Hne. unfold BookingDialog, totalAmount, watchedQuantity. simpl.
    rewrite Hq, (orDefault_nonzero _ _ Hne). now split.
  - intros Hf. unfold totalAmount, watchedQuantity. simpl.
    now rewrite (orDefault_falsy _ _ Hf).
Qed.

Lemma total_is_price_times_quantity_witness :
  ~ (3 == 0)%Q
  /\ totalAmount (Some Sample.summit) (setValues (Sample.form (Num 3)) initial)
     = (299 * 3)%Q
  /\ totalAmount (Some Sample.summit) (setValues (Sample.form NaN) initial)
     = (299 * 1)%Q.
Proof.
  assert (H3 : ~ (3 == 0)%Q) by (intros H; discriminate H).
  split; [exact H3|].
  split.
  - exact (proj1 (proj1 (total_is_price_times_quantity Sample.summit initial
                           (Sample.form (Num 3)) true false)
                        3%Q eq_refl H3)).
  - exact (proj2 (total_is_price_times_quantity Sample.summit initial
                    (Sample.form NaN) true false) eq_refl).
Defined.

(** ** The schema *)

Lemma stringMin_none (n : nat) (msg s : string) :
  Zod.stringMin n msg s = None <-> (n <= String.length s)%nat.
Proof.
  unfold Zod.stringMin.
  destruct (Nat.ltb_spec (String.length s) n); split;
    intros; try discriminate; try reflexivity; lia.
Qed.

Lemma stringEmail_none (msg s : string) :
  Zod.stringEmail msg s = None <-> Zod.isEmail s = true.
Proof.
  unfold Zod.stringEmail. destruct (Zod.isEmail s); split;
    intros; try discriminate; reflexivity.
Qed.

Lemma numberMin_none (c : Q) (msg : string) (x : number) :
  Zod.numberMin c msg x = None <-> exists q, x = Num q /\ (c <= q)%Q.
Proof.
  destruct x as [|q]; simpl.
  - split; [discriminate | intros (q & H & _); discriminate].
  - destruct (Qle_bool c q) eqn:E; simpl; split.
    + intros _. exists q. split; [reflexivity | now apply Qle_bool_iff].
    + reflexivity.
    + discriminate.
    + intros (q' & Hq & Hle). injection Hq as <-.
      apply Qle_bool_iff in Hle. congruence.
Qed.

Lemma isNone_true {X : Type} (o : option X) : isNone o = true <-> o = None.
Proof. destruct o; simpl; split; intros; try discriminate; reflexivity. Qed.

Lemma valid_iff (d : BookingFormData) :
  valid d = true
  <-> (2 <= String.length (name d))%nat
      /\ Zod.isEmail (email d) = true
      /\ (10 <= String.length (mobile d))%nat
      /\ exists q, quantity d = Num q /\ (1 <= q)%Q.
Proof.
  unfold valid, bookingSchema. cbn [err_name err_email err_mobile err_quantity].
  rewrite !andb_true_iff, !isNone_true.
  rewrite !stringMin_none, stringEmail_none, numberMin_none. tauto.
Qed.

(** C6. The schema accepts a form exactly when the name has at least 2
    characters, the email matches the address pattern, the mobile string has
    at least 10 characters and the quantity is a number that is at least 1.
    The name "Al" raises no issue and "A" raises "Name must be at least 2
    characters"; the email "not-an-email" raises "Invalid email address" and
    "a@b.com" raises none.  A form with a failing field is not handed to the
    submit handler: its issues become the field messages, the status and
    message are untouched and no effect is issued. *)
Theorem schema_rules :
  (forall d : BookingFormData,
      valid d = true
      <-> (2 <= String.length (name d))%nat
          /\ Zod.isEmail (email d) = true
          /\ (10 <= String.length (mobile d))%nat
          /\ exists q, quantity d = Num q /\ (1 <= q)%Q)
  /\ (forall d, name d = "Al" -> err_name (bookingSchema d) = None)
  /\ (forall d, name d = "A" ->
                err_name (bookingSchema d)
                = Some "Name must be at least 2 characters")
  /\ (forall d, email d = "not-an-email" ->
                err_email (bookingSchema d) = Some "Invalid email address")
  /\ (forall d, email d = "a@b.com" -> err_email (bookingSchema d) = None)
  /\ (forall (A : Type) (mutateAsync : BookingRequest -> Settled A)
             (event : option Event) (s : State),
         valid (values s) = false ->
         handleSubmit mutateAsync event s
         = (setErrors (bookingSchema (values s)) s, [])
         /\ handleSubmit_begin event s
            = Returned (setErrors (bookingSchema (values s)) s)).
Proof.
  split; [exact valid_iff|].
  split; [intros d H; simpl; now rewrite H|].
  split; [intros d H; simpl; now rewrite H|].
  split; [intros d H; simpl; now rewrite H|].
  split; [intros d H; simpl; now rewrite H|].
  intros A mutateAsync event s H.
  unfold handleSubmit, handleSubmit_begin. rewrite H. now split.
Qed.

Lemma schema_rules_witness :
  valid (Sample.form (Num 1)) = true
  /\ valid (Sample.form (Num (1 # 2))) = false
  /\ err_name (bookingSchema (Sample.form (Num 1))) = None
  /\ handleSubmit Sample.accepting (Some Sample.summit)
                  (setValues (Sample.form (Num (1 # 2))) initial)
     = (setErrors (bookingSchema (Sample.form (Num (1 # 2))))
                  (setValues (Sample.form (Num (1 # 2))) initial), []).
Proof.
  destruct schema_rules as (Hiff & HAl & _ & _ & _ & Hblock).
  split.
  - apply (proj2 (Hiff (Sample.form (Num 1)))).
    split; [simpl; lia|]. split; [reflexivity|]. split; [simpl; lia|].
    exists 1%Q. split; [reflexivity | discriminate].
  - split; [reflexivity|].
    split; [exact (HAl (Sample.form (Num 1)) eq_refl)|].
    exact (proj1 (Hblock unit Sample.accepting (Some Sample.summit)
                    (setValues (Sample.form (Num (1 # 2))) initial) eq_refl)).
Defined.

(** ** The submit button *)

(** C7. Whenever the dialog renders (there is an event), its submit button
    is disabled exactly when a booking request is in flight
    ([createBooking.isPending]) or the event has zero available seats;
    without an event nothing is rendered.  In a configuration of a run the
    flag is set exactly when a request has not settled yet. *)
Theorem submit_disabled_iff :
  forall (ev : Event) (open pending : bool) (s : State),
    BookingDialog None open pending s = None
    /\ (exists v,
          BookingDialog (Some ev) open pending s = Some v
          /\ (v_submitDisabled v = true
              <-> pending = true \/ availableSeats ev = 0%Z))
    /\ (forall c : Config,
          option_map v_submitDisabled
                     (BookingDialog (Some ev) (c_open c) (isPending c) (c_state c))
          = Some true
          <-> (0 < c_inflight c)%nat \/ availableSeats ev = 0%Z).
Proof.
  intros ev open pending s. split; [reflexivity|]. split.
  - eexists. split; [reflexivity|]. simpl.
    rewrite orb_true_iff, Z.eqb_eq. reflexivity.
  - intros c. simpl. unfold isPending. split.
    + intros H. injection H as H.
      apply orb_true_iff in H. rewrite Nat.ltb_lt, Z.eqb_eq in H. exact H.
    + intros H. f_equal.
      apply orb_true_iff. rewrite Nat.ltb_lt, Z.eqb_eq. exact H.
Qed.

(** ** Runs: status changes and the message invariant *)

Lemma run_reachable (ops : list Op) :
  forall c c', Reachable c -> run c ops = Some c' -> Reachable c'.
Proof.
  induction ops as [|op ops IH]; intros c c' Hc Hrun; simpl in Hrun.
  - now injection Hrun as <-.
  - destruct (step c op) as [c1|] eqn:E; [|discriminate].
    eapply IH; [|exact Hrun]. eapply reach_step; eassumption.
Qed.

(** Status and message after each kind of step. *)

Lemma rerender_cases (prev next : bool) (s : State) :
  (rerender prev next s = s /\ (prev = next \/ next = false))
  \/ (rerender prev next s = openEffect true s /\ prev = false /\ next = true).
Proof. destruct prev, next; simpl; auto. Qed.

Lemma handleSubmit_begin_cases (event : option Event) (s : State) :
  (exists s', handleSubmit_begin event s = Returned s'
              /\ bookingStatus s' = bookingStatus s
              /\ errorMessage s' = errorMessage s)
  \/ (exists ev, event = Some ev
                 /\ valid (values s) = true
                 /\ gtZ (quantity (values s)) (availableSeats ev) = true
                 /\ exists s', handleSubmit_begin event s = Returned s'
                               /\ bookingStatus s' = error
                               /\ errorMessage s' = seatMessage ev)
  \/ (exists s' r, handleSubmit_begin event s = Awaiting s' r
                   /\ bookingStatus s' = bookingStatus s
                   /\ errorMessage s' = errorMessage s).
Proof.
  unfold handleSubmit_begin, onSubmit_begin.
  destruct (valid (values s)) eqn:V.
  - destruct event as [ev|].
    + cbn [values setErrors].
      destruct (gtZ (quantity (values s)) (availableSeats ev)) eqn:G.
      * right. left. exists ev. repeat split; try assumption.
        eexists. repeat split.
      * right. right. eexists. eexists. repeat split.
    + left. eexists. repeat split.
  - left. eexists. repeat split.
Qed.

(** C9, as stated, fails: a resubmission from the error status lands on
    success.  After the session [Sample.retry] the status is "error" with a
    request in flight, and when that request completes the status is
    "success". *)
Lemma error_to_success_run :
  option_map statusOf (run (mount false) Sample.retry) = Some error
  /\ option_map statusOf
       (run (mount false) (Sample.retry ++ [Settle (Fulfilled tt)]))
     = Some success.
Proof. split; reflexivity. Qed.

(** C9, amended. In every step of a run of the edit, submit, settle and
    open/close operations the status changes only in these ways, from
    whatever status it had: to "success" when a request in flight completes
    without error; to "error" when a submitted form that passed the schema
    asks for more than the available seats, or when a request in flight is
    rejected; to "idle" when [open] goes from false to true. *)
Theorem status_changes_only_by :
  forall (c : Config) (op : Op) (c' : Config),
    step c op = Some c' ->
    statusOf c' <> statusOf c ->
    (statusOf c' = success
     /\ (0 < c_inflight c)%nat /\ exists a, op = Settle (Fulfilled a))
    \/ (statusOf c' = error
        /\ ((exists ev, op = Submit (Some ev)
                        /\ valid (values (c_state c)) = true
                        /\ gtZ (quantity (values (c_state c))) (availableSeats ev)
                           = true)
            \/ ((0 < c_inflight c)%nat /\ exists e, op = Settle (RejectedWith e))))
    \/ (statusOf c' = idle /\ c_open c = false /\ op = SetOpen true).
Proof.
  intros c op c' Hstep Hchg. unfold statusOf in *.
  destruct op as [o | d | event | o]; simpl in Hstep.
  - injection Hstep as <-. cbn [c_state] in *.
    destruct (rerender_cases (c_open c) o (c_state c)) as [[E _] | (E & Hp & Ho)].
    + rewrite E in Hchg. contradiction.
    + right. right. rewrite E. subst o. auto.
  - injection Hstep as <-. cbn [c_state] in Hchg. simpl in Hchg. contradiction.
  - destruct (handleSubmit_begin_cases event (c_state c))
      as [(s' & E & Hs & _) | [(ev & -> & V & G & s' & E & Hs & _) | (s' & r & E & Hs & _)]];
      rewrite E in Hstep; injection Hstep as <-; cbn [c_state] in *.
    + congruence.
    + right. left. split; [exact Hs|]. left. exists ev. auto.
    + congruence.
  - destruct (c_inflight c) as [|n] eqn:En; [discriminate|].
    destruct o as [a | e]; simpl in Hstep; injection Hstep as <-; cbn [c_state] in *.
    + left. split; [reflexivity|]. split; [lia|]. now exists a.
    + right. left. split; [reflexivity|]. right. split; [lia|]. now exists e.
Qed.

Lemma status_changes_only_by_witness :
  let c := {| c_open := true;
              c_state := setValues (Sample.form (Num 151)) initial;
              c_inflight := 0; c_trace := [] |} in
  let c' := {| c_open := true;
               c_state :=
                 setErrorMessage "Only 150 seats available. Please reduce quantity."
                   (setBookingStatus error
                      (setValues (Sample.form (Num 151)) initial));
               c_inflight := 0; c_trace := [] |} in
  step c (Submit (Some Sample.summit)) = Some c'
  /\ statusOf c' <> statusOf c
  /\ statusOf c' = error
  /\ gtZ (quantity (values (c_state c))) (availableSeats Sample.summit) = true.
Proof.
  cbv zeta.
  assert (Hchg : error <> idle) by discriminate.
  split; [reflexivity|]. split; [exact Hchg|].
  destruct (status_changes_only_by
              {| c_open := true;
                 c_state := setValues (Sample.form (Num 151)) initial;
                 c_inflight := 0; c_trace := [] |}
              (Submit (Some Sample.summit))
              {| c_open := true;
                 c_state :=
                   setErrorMessage "Only 150 seats available. Please reduce quantity."
                     (setBookingStatus error
                        (setValues (Sample.form (Num 151)) initial));
                 c_inflight := 0; c_trace := [] |}
              eq_refl Hchg)
    as [(H & _) | [(H & _) | (H & _)]].
  - discriminate H.
  - split; [exact H | reflexivity].
  - discriminate H.
Defined.


Lemma step_keeps_error_message (c : Config) (op : Op) (c' : Config) :
  step c op = Some c' ->
  ErrorHasMessage (c_state c) ->
  ErrorHasMessage (c_state c').
Proof.
  intros Hstep Inv. unfold ErrorHasMessage in *.
  destruct op as [o | d | event | o]; simpl in Hstep.
  - injection Hstep as <-. cbn [c_state].
    destruct (rerender_cases (c_open c) o (c_state c)) as [[E _] | (E & _)];
      rewrite E; [exact Inv | discriminate].
  - injection Hstep as <-. exact Inv.
  - destruct (handleSubmit_begin_cases event (c_state c))
      as [(s' & E & Hs & Hm) | [(ev & _ & _ & _ & s' & E & _ & Hm) | (s' & r & E & Hs & Hm)]];
      rewrite E in Hstep; injection Hstep as <-; cbn [c_state].
    + rewrite Hs, Hm. exact Inv.
    + intros _. rewrite Hm. apply seatMessage_nonempty.
    + rewrite Hs, Hm. exact Inv.
  - destruct (c_inflight c) as [|n]; [discriminate|].
    destruct o as [a | e]; simpl in Hstep; injection Hstep as <-; cbn [c_state].
    + discriminate.
    + intros _. simpl. apply strOr_nonempty. discriminate.
Qed.

Lemma open_transition_clears (c c' : Config) :
  step c (SetOpen true) = Some c' ->
  c_open c = false ->
  statusOf c' = idle /\ errorMessage (c_state c') = "".
Proof.
  intros Hstep Hc. simpl in Hstep. injection Hstep as <-.
  rewrite Hc. now split.
Qed.

(** C10. Every operation of the dialog preserves the invariant that a status
    "error" comes with a non-empty message: the open transition leaves the
    status "idle", the seat guard stores its own message, a completed
    request leaves the status "success", and a rejected request stores the
    caught message or, when that is missing or empty, the fallback; and
    right after [open] goes from false to true, the status is "idle" and the
    message is the empty string. *)
Theorem error_message_invariant :
  forall (c : Config) (op : Op) (c' : Config),
    step c op = Some c' ->
    ErrorHasMessage (c_state c) ->
    ErrorHasMessage (c_state c')
    /\ (op = SetOpen true -> c_open c = false ->
        statusOf c' = idle /\ errorMessage (c_state c') = "").
Proof.
  intros c op c' Hstep Inv. split.
  - exact (step_keeps_error_message c op c' Hstep Inv).
  - intros -> Hc. exact (open_transition_clears c c' Hstep Hc).
Qed.

Lemma error_message_invariant_witness :
  let c := {| c_open := true; c_state := initial;
              c_inflight := 1; c_trace := [] |} in
  let c' := {| c_open := true;
               c_state := setErrorMessage fallbackMessage
                            (setBookingStatus error initial);
               c_inflight := 0; c_trace := [] |} in
  step c (Settle (RejectedWith (Some {| message := Some "" |}))) = Some c'
  /\ ErrorHasMessage (c_state c)
  /\ ErrorHasMessage (c_state c').
Proof.
  cbv zeta.
  assert (H0 : ErrorHasMessage initial) by (intros H; discriminate H).
  split; [reflexivity|]. split; [exact H0|].
  exact (proj1 (error_message_invariant
                  {| c_open := true; c_state := initial;
                     c_inflight := 1; c_trace := [] |}
                  (Settle (RejectedWith (Some {| message := Some "" |})))
                  {| c_open := true;
                     c_state := setErrorMessage fallbackMessage
                                  (setBookingStatus error initial);
                     c_inflight := 0; c_trace := [] |}
                  eq_refl H0)).
Defined.


(** ** The listing page *)

Import Listing.

Lemma mapFrom_cards {K : Type} (key : Event -> K) (delay : nat -> Q)
      (mk : K -> Q -> Event -> Cell)
      (Hmk : forall k q e, cell_card (mk k q e) = e)
      (xs : list Event) :
  forall i, map cell_card (mapFrom (fun e n => mk (key e) (delay n) e) i xs) = xs.
Proof.
  induction xs as [|x xs IH]; intros i; simpl; [reflexivity|].
  now rewrite Hmk, IH.
Qed.

Lemma grid_cards (f : Filters) : map cell_card (p_grid (Events f)) = allEvents.
Proof.
  unfold Events, mapi. cbn [p_grid].
  exact (mapFrom_cards id (fun n => inject_Z (Z.of_nat n) * (1 # 10))%Q
           (fun k q e => {| cell_key := k; cell_delay := q; cell_card := e |})
           (fun _ _ _ => eq_refl) allEvents 0%nat).
Qed.

(** C8. For any two states of the filter controls the page renders the same
    grid, and that grid holds the full list [allEvents], in order; the
    counter above it shows the length of the full list.  Only the three
    controls themselves show the filter state. *)
Theorem grid_ignores_filters :
  forall (f1 f2 : Filters),
    p_grid (Events f1) = p_grid (Events f2)
    /\ p_grid (Events f1) = p_grid (Events initialFilters)
    /\ map cell_card (p_grid (Events f1)) = allEvents
    /\ p_showing (Events f1) = List.length allEvents
    /\ p_showing (Events f1) = p_showing (Events f2)
    /\ (p_search (Events f1), p_location (Events f1), p_date (Events f1))
       = (searchTerm f1, locationFilter f1, dateFilter f1).
Proof.
  intros f1 f2. split; [reflexivity|]. split; [reflexivity|].
  split; [apply grid_cards|].
  repeat split.
Qed.

(** ** The event-detail hook *)

Lemma strTruthy_false (id : option string) :
  strTruthy id = false <-> id = None \/ id = Some "".
Proof.
  destruct id as [i|]; simpl.
  - rewrite negb_false_iff, String.eqb_eq. split.
    + intros ->. now right.
    + intros [H | H]; [discriminate | now injection H].
  - split; [now left | reflexivity].
Qed.

(** C2, as stated, fails: called without an identifier the hook does not
    yield an error result.  The query is disabled, its function is not run,
    and the result is pending and idle with no error. *)
Lemma absent_id_no_error_result :
  fst (Query.useEvent Sample.offline None)
  = {| Query.status := Query.st_pending; Query.fetchStatus := Query.fs_idle;
       Query.data := None; Query.error := None |}
  /\ Query.isError (fst (Query.useEvent Sample.offline None)) = false
  /\ Query.error (fst (Query.useEvent Sample.offline None))
     <> Some {| message := Some "Event ID is required" |}.
Proof. repeat split. discriminate. Qed.

(** C2, amended. For every call of the hook with an absent identifier
    (undefined or empty) the query is disabled: no network call is issued
    and the hook yields a pending, idle result without data and without
    error.  The query function itself, were it run with an absent
    identifier, fails with "Event ID is required" before any network
    call. *)
Theorem absent_id_disables_query :
  forall (apiGet : string -> Settled (Query.ApiResponse Event))
         (id : option string),
    id = None \/ id = Some "" ->
    Query.enabled (Query.eventQueryOptions apiGet id) = false
    /\ Query.useEvent apiGet id
       = ({| Query.status := Query.st_pending; Query.fetchStatus := Query.fs_idle;
             Query.data := None; Query.error := None |}, [])
    /\ Query.queryFn (Query.eventQueryOptions apiGet id) tt
       = ([], RejectedWith (Some {| message := Some "Event ID is required" |})).
Proof.
  intros apiGet id [-> | ->]; repeat split.
Qed.

Lemma absent_id_disables_query_witness :
  (Some "" = None \/ Some "" = Some "")
  /\ Query.useEvent Sample.offline (Some "")
     = ({| Query.status := Query.st_pending; Query.fetchStatus := Query.fs_idle;
           Query.data := None; Query.error := None |}, []).
Proof.
  split; [right; reflexivity|].
  exact (proj1 (proj2 (absent_id_disables_query Sample.offline (Some "")
                         (or_intror eq_refl)))).
Defined.

(** With an identifier the query runs and issues the GET of that event. *)
Lemma present_id_fetches (apiGet : string -> Settled (Query.ApiResponse Event))
      (i : string) :
  i <> "" ->
  snd (Query.useEvent apiGet (Some i)) = [Query.ApiGet ("/events/" ++ i)].
Proof.
  intros H. unfold Query.useEvent, Query.useQuery, Query.eventQueryOptions.
  cbn [Query.enabled Query.queryFn]. unfold strTruthy, Query.eventQueryFn. apply String.eqb_neq in H. rewrite H.
  cbn [negb]. cbv zeta. destruct (apiGet ("/events/" ++ i)); reflexivity.
Qed.

(* ================================================================== *)
(** * Further properties of the submit handler *)

Import Trace.

Lemma gtZ_false_le (q : Q) (a : Z) :
  gtZ (Num q) a = false <-> (q <= inject_Z a)%Q.
Proof. simpl. now rewrite negb_false_iff, Qle_bool_iff. Qed.

Lemma gtZ_valid_false (d : BookingFormData) (a : Z) :
  valid d = true -> gtZ (quantity d) a = false ->
  exists q, quantity d = Num q /\ (1 <= q)%Q /\ (q <= inject_Z a)%Q.
Proof.
  intros V G. apply valid_iff in V. destruct V as (_ & _ & _ & q & Hq & H1).
  exists q. rewrite Hq in G. apply gtZ_false_le in G. auto.
Qed.

(** The effects of one run of the handler, by the way the request settles. *)
Lemma onSubmit_effects {A : Type} (mutateAsync : BookingRequest -> Settled A)
      (ev : Event) (data : BookingFormData) (s : State) :
  gtZ (quantity data) (availableSeats ev) = false ->
  snd (onSubmit mutateAsync (Some ev) data s)
  = MutateAsync (requestOf ev data)
      :: match mutateAsync (requestOf ev data) with
         | Fulfilled _ => [Confetti 100 70 (6 # 10); closingTimer]
         | RejectedWith _ => []
         end.
Proof.
  intros G. unfold onSubmit. rewrite (onSubmit_begin_pass ev data s G).
  destruct (mutateAsync (requestOf ev data)); reflexivity.
Qed.

(** X1. The success path.  For every submission that passes the seat guard and
    whose request is fulfilled: the status is "success"; the request carries
    the event's id and the four fields of the form; after it come one
    confetti call (100 particles, spread 70, origin y 0.6) and one timer of
    100 ms that calls [onOpenChange(false)] and then [onSuccess()], and
    nothing else; the field values, the field errors and the stored error
    message are left as they were; the success banner shows and the error
    banner does not. *)
Theorem fulfilled_request_celebrates :
  forall (A : Type) (mutateAsync : BookingRequest -> Settled A)
         (ev : Event) (data : BookingFormData) (s : State) (a : A)
         (open pending : bool),
    gtZ (quantity data) (availableSeats ev) = false ->
    mutateAsync (requestOf ev data) = Fulfilled a ->
    let s' := fst (onSubmit mutateAsync (Some ev) data s) in
    bookingStatus s' = success
    /\ errorMessage s' = errorMessage s
    /\ values s' = values s
    /\ errors s' = errors s
    /\ snd (onSubmit mutateAsync (Some ev) data s)
       = [ MutateAsync {| req_eventId := id ev; req_name := name data;
                          req_email := email data; req_mobile := mobile data;
                          req_quantity := quantity data |};
           Confetti 100 70 (6 # 10);
           SetTimeout [OnOpenChange false; OnSuccess] 100 ]
    /\ option_map (fun v => (v_successBanner v, v_errorBanner v))
                  (BookingDialog (Some ev) open pending s')
       = Some (true, None).
Proof.
  intros A mutateAsync ev data s a open pending G F.
  unfold onSubmit. rewrite (onSubmit_begin_pass ev data s G), F. simpl.
  repeat split.
Qed.

Lemma fulfilled_request_celebrates_witness :
  gtZ (quantity (Sample.form (Num 2))) (availableSeats Sample.summit) = false
  /\ Sample.accepting (requestOf Sample.summit (Sample.form (Num 2)))
     = Fulfilled tt
  /\ bookingStatus
       (fst (onSubmit Sample.accepting (Some Sample.summit)
                      (Sample.form (Num 2)) initial))
     = success.
Proof.
  split; [reflexivity|]. split; [reflexivity|].
  exact (proj1 (fulfilled_request_celebrates unit Sample.accepting
                  Sample.summit (Sample.form (Num 2)) initial tt true false
                  eq_refl eq_refl)).
Defined.

(** X2. Without an event the dialog is inert: the handler returns at once with
    the state it was given and no effect; through [handleSubmit] only the
    field errors can change; nothing is rendered and the total is 0; in a
    run, such a submission leaves the requests in flight and the trace as
    they were. *)
Theorem no_event_is_inert :
  forall (A : Type) (mutateAsync : BookingRequest -> Settled A)
         (data : BookingFormData) (s : State) (open pending : bool) (c : Config),
    onSubmit mutateAsync None data s = (s, [])
    /\ snd (handleSubmit mutateAsync None s) = []
    /\ bookingStatus (fst (handleSubmit mutateAsync None s)) = bookingStatus s
    /\ errorMessage (fst (handleSubmit mutateAsync None s)) = errorMessage s
    /\ values (fst (handleSubmit mutateAsync None s)) = values s
    /\ BookingDialog None open pending s = None
    /\ totalAmount None s = 0%Q
    /\ exists c', step c (Submit None) = Some c'
                  /\ c_inflight c' = c_inflight c
                  /\ c_trace c' = c_trace c
                  /\ statusOf c' = statusOf c.
Proof.
  intros A mutateAsync data s open pending c.
  split; [reflexivity|].
  unfold handleSubmit, onSubmit. simpl.
  destruct (valid (values s)); simpl; repeat split.
  - unfold handleSubmit_begin. destruct (valid (values (c_state c)));
      eexists; repeat split.
  - unfold handleSubmit_begin. destruct (valid (values (c_state c)));
      eexists; repeat split.
Qed.

(** X3. Every request that a form submission sends is within bounds: it is
    built from the form's current values and the event's id, its quantity
    is a number between 1 and the available seats, its name has at least 2
    characters, its email passes the email check and its mobile string has
    at least 10 characters; and one submission sends at most one request. *)
Theorem sent_request_within_bounds :
  forall (A : Type) (mutateAsync : BookingRequest -> Settled A)
         (ev : Event) (s : State) (r : BookingRequest),
    In (MutateAsync r) (snd (handleSubmit mutateAsync (Some ev) s)) ->
    r = requestOf ev (values s)
    /\ req_eventId r = id ev
    /\ (exists q, req_quantity r = Num q
                  /\ (1 <= q)%Q /\ (q <= inject_Z (availableSeats ev))%Q)
    /\ (2 <= String.length (req_name r))%nat
    /\ Zod.isEmail (req_email r) = true
    /\ (10 <= String.length (req_mobile r))%nat
    /\ count isRequest (snd (handleSubmit mutateAsync (Some ev) s)) = 1%nat.
Proof.
  intros A mutateAsync ev s r Hin. unfold handleSubmit in *.
  destruct (valid (values s)) eqn:V; [|destruct Hin].
  destruct (gtZ (quantity (values s)) (availableSeats ev)) eqn:G.
  - unfold onSubmit in Hin.
    rewrite (onSubmit_begin_guard ev _ _ G) in Hin. destruct Hin.
  - rewrite (onSubmit_effects mutateAsync ev _ _ G) in *.
    assert (Hr : r = requestOf ev (values s)).
    { destruct Hin as [H | H]; [now injection H|].
      destruct (mutateAsync (requestOf ev (values s)));
        repeat (destruct H as [H | H]; [discriminate H|]); destruct H. }
    subst r. split; [reflexivity|]. split; [reflexivity|].
    split; [exact (gtZ_valid_false _ _ V G)|].
    apply valid_iff in V. destruct V as (Hn & He & Hm & _).
    cbn [requestOf req_name req_email req_mobile].
    repeat split; try assumption.
    destruct (mutateAsync (requestOf ev (values s))); reflexivity.
Qed.

Lemma sent_request_within_bounds_witness :
  In (MutateAsync (requestOf Sample.summit (Sample.form (Num 2))))
     (snd (handleSubmit Sample.accepting (Some Sample.summit)
                        (setValues (Sample.form (Num 2)) initial)))
  /\ exists q, Num 2 = Num q /\ (1 <= q)%Q /\ (q <= 150)%Q.
Proof.
  assert (Hin : In (MutateAsync (requestOf Sample.summit (Sample.form (Num 2))))
                   (snd (handleSubmit Sample.accepting (Some Sample.summit)
                           (setValues (Sample.form (Num 2)) initial))))
    by (left; reflexivity).
  split; [exact Hin|].
  exact (proj1 (proj2 (proj2 (sent_request_within_bounds unit Sample.accepting
                                Sample.summit
                                (setValues (Sample.form (Num 2)) initial)
                                _ Hin)))).
Defined.

(** X4. An event without seats never gets a request: when [availableSeats] is
    zero (or below), every form submission ends without an effect, and a
    form that passes the schema ends in status "error" with the seat
    message. *)
Theorem sold_out_never_sends :
  forall (A : Type) (mutateAsync : BookingRequest -> Settled A)
         (ev : Event) (s : State),
    (availableSeats ev <= 0)%Z ->
    snd (handleSubmit mutateAsync (Some ev) s) = []
    /\ (valid (values s) = true ->
        bookingStatus (fst (handleSubmit mutateAsync (Some ev) s)) = error
        /\ errorMessage (fst (handleSubmit mutateAsync (Some ev) s))
           = seatMessage ev).
Proof.
  intros A mutateAsync ev s Hz.
  assert (G : valid (values s) = true ->
              gtZ (quantity (values s)) (availableSeats ev) = true).
  { intros V. apply valid_iff in V. destruct V as (_ & _ & _ & q & Hq & H1).
    apply gtZ_spec. exists q. split; [exact Hq|].
    apply Qlt_le_trans with (y := 1%Q); [|exact H1].
    apply Qle_lt_trans with (y := inject_Z 0).
    - rewrite <- Zle_Qle. exact Hz.
    - reflexivity. }
  unfold handleSubmit, onSubmit. destruct (valid (values s)) eqn:V.
  - rewrite (onSubmit_begin_guard ev _ _ (G eq_refl)). simpl.
    split; [reflexivity|]. intros _. now split.
  - split; [reflexivity|]. discriminate.
Qed.

Lemma sold_out_never_sends_witness :
  (availableSeats Sample.soldOut <= 0)%Z
  /\ snd (handleSubmit Sample.accepting (Some Sample.soldOut)
                       (setValues (Sample.form (Num 1)) initial)) = []
  /\ errorMessage
       (fst (handleSubmit Sample.accepting (Some Sample.soldOut)
                          (setValues (Sample.form (Num 1)) initial)))
     = "Only 0 seats available. Please reduce quantity.".
Proof.
  assert (Hz : (availableSeats Sample.soldOut <= 0)%Z) by (simpl; lia).
  split; [exact Hz|].
  destruct (sold_out_never_sends unit Sample.accepting Sample.soldOut
              (setValues (Sample.form (Num 1)) initial) Hz) as [Hfx Herr].
  split; [exact Hfx|].
  exact (proj2 (Herr eq_refl)).
Defined.

(** ** The derived total, continued *)

Lemma watchedQuantity_nonzero (s : State) : ~ (watchedQuantity s == 0)%Q.
Proof.
  unfold watchedQuantity. destruct (quantity (values s)) as [|q]; simpl.
  - discriminate.
  - destruct (Qeq_bool q 0) eqn:E; [discriminate|].
    now apply Qeq_bool_neq.
Qed.

(** X5. The quantity behind the total is never zero, so with an event the total
    is zero exactly when the event's price is zero; and it is the price
    itself whenever the field holds no usable number. *)
Theorem total_zero_only_for_free_events :
  forall (ev : Event) (s : State),
    ~ (watchedQuantity s == 0)%Q
    /\ ((totalAmount (Some ev) s == 0)%Q <-> (price ev == 0)%Q)
    /\ (truthy (quantity (values s)) = false ->
        (totalAmount (Some ev) s == price ev)%Q).
Proof.
  intros ev s. split; [apply watchedQuantity_nonzero|]. split.
  - unfold totalAmount. split.
    + intros H. apply Qmult_integral in H. destruct H as [H | H]; [exact H|].
      exfalso. exact (watchedQuantity_nonzero s H).
    + intros H. rewrite H. apply Qmult_0_l.
  - intros H. unfold totalAmount, watchedQuantity.
    rewrite (orDefault_falsy _ _ H). apply Qmult_1_r.
Qed.

Lemma total_zero_only_for_free_events_witness :
  truthy (quantity (values (setValues (Sample.form NaN) initial))) = false
  /\ (totalAmount (Some Sample.summit) (setValues (Sample.form NaN) initial)
      == 299)%Q
  /\ ~ (totalAmount (Some Sample.summit) (setValues (Sample.form NaN) initial)
        == 0)%Q.
Proof.
  destruct (total_zero_only_for_free_events Sample.summit
              (setValues (Sample.form NaN) initial)) as (_ & Hz & Hp).
  split; [reflexivity|]. split; [exact (Hp eq_refl)|].
  intros H. apply Hz in H. discriminate H.
Defined.

(** X6. Whenever a form submission sends a request, the total on display at
    that moment is the event's price times the quantity sent. *)
Theorem total_matches_sent_quantity :
  forall (A : Type) (mutateAsync : BookingRequest -> Settled A)
         (ev : Event) (s : State) (r : BookingRequest),
    In (MutateAsync r) (snd (handleSubmit mutateAsync (Some ev) s)) ->
    exists q, req_quantity r = Num q
              /\ totalAmount (Some ev) s = (price ev * q)%Q.
Proof.
  intros A mutateAsync ev s r Hin. unfold handleSubmit in Hin.
  destruct (valid (values s)) eqn:V; [|destruct Hin].
  destruct (gtZ (quantity (values s)) (availableSeats ev)) eqn:G.
  - unfold onSubmit in Hin.
    rewrite (onSubmit_begin_guard ev _ _ G) in Hin. destruct Hin.
  - rewrite (onSubmit_effects mutateAsync ev _ _ G) in Hin.
    assert (Hr : r = requestOf ev (values s)).
    { destruct Hin as [H | H]; [now injection H|].
      destruct (mutateAsync (requestOf ev (values s)));
        repeat (destruct H as [H | H]; [discriminate H|]); destruct H. }
    destruct (gtZ_valid_false _ _ V G) as (q & Hq & H1 & _).
    exists q. subst r. split; [exact Hq|].
    unfold totalAmount, watchedQuantity. rewrite Hq.
    rewrite orDefault_nonzero; [reflexivity|].
    intros H0. rewrite H0 in H1. now apply H1.
Qed.

Lemma total_matches_sent_quantity_witness :
  In (MutateAsync (requestOf Sample.summit (Sample.form (Num 2))))
     (snd (handleSubmit Sample.declining (Some Sample.summit)
                        (setValues (Sample.form (Num 2)) initial)))
  /\ exists q, Num 2 = Num q
               /\ totalAmount (Some Sample.summit)
                              (setValues (Sample.form (Num 2)) initial)
                  = (299 * q)%Q.
Proof.
  assert (Hin : In (MutateAsync (requestOf Sample.summit (Sample.form (Num 2))))
                   (snd (handleSubmit Sample.declining (Some Sample.summit)
                           (setValues (Sample.form (Num 2)) initial))))
    by (left; reflexivity).
  split; [exact Hin|].
  exact (total_matches_sent_quantity unit Sample.declining Sample.summit
           (setValues (Sample.form (Num 2)) initial) _ Hin).
Defined.

(** ** The untouched form *)

(** X7. Submitting the form right after the dialog opened, with nothing typed:
    the three text fields get their messages, the quantity (1) gets none,
    the status stays "idle" and nothing is sent, whatever the event and
    whatever the state before the dialog opened. *)
Theorem untouched_form_is_blocked :
  forall (A : Type) (mutateAsync : BookingRequest -> Settled A)
         (event : option Event) (s : State),
    handleSubmit mutateAsync event (rerender false true s)
    = ({| bookingStatus := idle;
          errorMessage := "";
          values := onlyQuantity 1;
          errors :=
            {| err_name := Some "Name must be at least 2 characters";
               err_email := Some "Invalid email address";
               err_mobile := Some "Mobile number must be at least 10 digits";
               err_quantity := None |} |},
       []).
Proof. intros A mutateAsync event s. reflexivity. Qed.

(** ** The banners *)



(** ** Runs, continued *)

Lemma count_app (p : Effect -> bool) (t u : list Effect) :
  count p (t ++ u)%list = (count p t + count p u)%nat.
Proof. unfold count. now rewrite filter_app, length_app. Qed.

Lemma mount_accounted (o : bool) : Accounted (mount o).
Proof.
  destruct o; unfold Accounted; simpl; repeat split; try lia; constructor.
Qed.

Lemma step_keeps_accounted (c : Config) (op : Op) (c' : Config) :
  step c op = Some c' -> Accounted c -> Accounted c'.
Proof.
  intros Hstep (Hct & Hle & Hall). unfold Accounted.
  destruct op as [o | d | event | o]; simpl in Hstep.
  - injection Hstep as <-. cbn [c_trace c_inflight]. auto.
  - injection Hstep as <-. cbn [c_trace c_inflight]. auto.
  - destruct (handleSubmit_begin event (c_state c)) as [s' | s' r];
      injection Hstep as <-; cbn [c_trace c_inflight]; [auto|].
    rewrite !count_app. cbn. split; [lia|]. split; [lia|].
    apply Forall_app. split; [exact Hall|].
    constructor; [discriminate | constructor].
  - destruct (c_inflight c) as [|n] eqn:En; [discriminate|].
    destruct o as [a | e]; simpl in Hstep; injection Hstep as <-;
      cbn [c_trace c_inflight].
    + rewrite !count_app. cbn. split; [lia|]. split; [lia|].
      apply Forall_app. split; [exact Hall|].
      constructor; [discriminate|]. constructor; [reflexivity | constructor].
    + rewrite app_nil_r. split; [exact Hct|]. split; [lia | exact Hall].
Qed.

(** X9. In every reachable configuration the effect trace balances: there is
    exactly one timer per confetti call, every timer is the 100 ms timer
    that calls [onOpenChange(false)] and then [onSuccess()], and the
    confetti calls together with the requests still in flight never exceed
    the requests sent.  So the dialog celebrates at most once per request,
    and never for a request that has not settled. *)
Theorem trace_is_accounted :
  forall c : Config, Reachable c -> Accounted c.
Proof.
  induction 1 as [o | c op c' _ IH Hstep].
  - apply mount_accounted.
  - exact (step_keeps_accounted c op c' Hstep IH).
Qed.

Lemma trace_is_accounted_witness :
  exists c,
    run (mount false) (Sample.retry ++ [Settle (Fulfilled tt)])%list = Some c
    /\ Reachable c
    /\ count isConfetti (c_trace c) = 1%nat
    /\ Accounted c.
Proof.
  eexists. split; [reflexivity|].
  match goal with
  | |- Reachable ?c /\ _ =>
      assert (R : Reachable c)
        by (apply (run_reachable (Sample.retry ++ [Settle (Fulfilled tt)])%list
                     (mount false) c (reach_mount false)); reflexivity)
  end.
  split; [exact R|]. split; [reflexivity|].
  exact (trace_is_accounted _ R).
Defined.

(** X10. Closing and reopening the dialog does not cancel a request in flight.
    From any configuration with a request in flight, after the dialog is
    closed, opened again and the request then settles, the form is at its
    defaults (quantity 1, no field errors) but the status is the one of the
    settlement: "success", with the confetti and the timer issued, or
    "error" with the rejection's message or the fallback. *)
Theorem reopen_does_not_cancel :
  forall (c : Config) (o : Settled unit),
    (0 < c_inflight c)%nat ->
    exists c',
      run c [SetOpen false; SetOpen true; Settle o] = Some c'
      /\ c_open c' = true
      /\ values (c_state c') = onlyQuantity 1
      /\ errors (c_state c') = noErrors
      /\ c_inflight c' = pred (c_inflight c)
      /\ match o with
         | Fulfilled _ =>
             statusOf c' = success
             /\ c_trace c' = (c_trace c ++ [Confetti 100 70 (6 # 10); closingTimer])%list
         | RejectedWith e =>
             statusOf c' = error
             /\ errorMessage (c_state c') = strOr (messageOf e) fallbackMessage
             /\ c_trace c' = c_trace c
         end.
Proof.
  intros [op st n t] o Hn. cbn [c_inflight] in Hn.
  destruct n as [|n]; [lia|].
  destruct op, o as [a | e]; simpl; eexists;
    repeat split; cbn [c_trace]; now rewrite ?app_nil_r.
Qed.

Lemma reopen_does_not_cancel_witness :
  exists c c',
    run (mount false) Sample.retry = Some c
    /\ (0 < c_inflight c)%nat
    /\ run c [SetOpen false; SetOpen true;
              Settle (RejectedWith (Some {| message := Some "Payment declined" |}))]
       = Some c'
    /\ statusOf c' = error
    /\ values (c_state c') = onlyQuantity 1.
Proof.
  assert (Hc : exists c, run (mount false) Sample.retry = Some c
                         /\ (0 < c_inflight c)%nat)
    by (eexists; split; [reflexivity | exact Nat.lt_0_1]).
  destruct Hc as (c & Hc & Hn).
  destruct (reopen_does_not_cancel c
              (RejectedWith (Some {| message := Some "Payment declined" |})) Hn)
    as (c' & Hrun & _ & Hv & _ & _ & Hs & _).
  exists c, c'. split; [exact Hc|]. split; [exact Hn|].
  split; [exact Hrun|]. split; [exact Hs | exact Hv].
Defined.

(** X11. The whole path of one booking.  From mount, when the dialog opens, the
    user enters a form that passes the schema and the seat guard, submits
    it and the request settles: if it is fulfilled the dialog ends in
    status "success" with the form as entered, nothing in flight and the
    trace request, confetti, timer; if it is rejected it ends in status
    "error" with the message (or the fallback) and only the request in the
    trace. *)
Theorem one_booking_run :
  forall (o : bool) (ev : Event) (d : BookingFormData) (r : Settled unit),
    valid d = true ->
    gtZ (quantity d) (availableSeats ev) = false ->
    run (mount o) [SetOpen true; Edit d; Submit (Some ev); Settle r]
    = Some {| c_open := true;
              c_state :=
                {| bookingStatus :=
                     match r with Fulfilled _ => success | RejectedWith _ => error end;
                   errorMessage :=
                     match r with
                     | Fulfilled _ => ""
                     | RejectedWith e => strOr (messageOf e) fallbackMessage
                     end;
                   values := d;
                   errors := noErrors |};
              c_inflight := 0;
              c_trace :=
                MutateAsync (requestOf ev d)
                  :: match r with
                     | Fulfilled _ => [Confetti 100 70 (6 # 10); closingTimer]
                     | RejectedWith _ => []
                     end |}.
Proof.
  intros o ev d r V G.
  assert (E : forall s, values s = d ->
                handleSubmit_begin (Some ev) s
                = Awaiting (setErrors noErrors s) (requestOf ev d)).
  { intros s Hs. unfold handleSubmit_begin. rewrite Hs, V.
    now apply onSubmit_begin_pass. }
  destruct o; cbn [run step mount c_open c_state c_inflight c_trace];
    rewrite E by reflexivity; destruct r; reflexivity.
Qed.

Lemma one_booking_run_witness :
  valid (Sample.form (Num 2)) = true
  /\ gtZ (quantity (Sample.form (Num 2))) (availableSeats Sample.summit) = false
  /\ option_map statusOf
       (run (mount false)
            [SetOpen true; Edit (Sample.form (Num 2));
             Submit (Some Sample.summit); Settle (Fulfilled tt)])
     = Some success.
Proof.
  split; [reflexivity|]. split; [reflexivity|].
  rewrite (one_booking_run false Sample.summit (Sample.form (Num 2))
             (Fulfilled tt) eq_refl eq_refl).
  reflexivity.
Defined.

Lemma handleSubmit_begin_values (event : option Event) (s : State) :
  match handleSubmit_begin event s with
  | Returned s' => values s' = values s
  | Awaiting s' _ => values s' = values s
  end.
Proof.
  unfold handleSubmit_begin, onSubmit_begin.
  destruct (valid (values s)); [|reflexivity].
  destruct event as [ev|]; [|reflexivity].
  destruct (gtZ _ _); reflexivity.
Qed.

(** X12. The form keeps what the user typed: in a run, the field values change
    only when the user edits them or when the dialog goes from closed to
    open; no submission and no settlement, successful or not, touches
    them. *)
Theorem values_change_only_by :
  forall (c : Config) (op : Op) (c' : Config),
    step c op = Some c' ->
    values (c_state c') <> values (c_state c) ->
    (exists d, op = Edit d /\ values (c_state c') = d)
    \/ (op = SetOpen true /\ c_open c = false
        /\ values (c_state c') = onlyQuantity 1).
Proof.
  intros c op c' Hstep Hchg.
  destruct op as [o | d | event | o]; simpl in Hstep.
  - injection Hstep as <-. cbn [c_state] in *.
    destruct (rerender_cases (c_open c) o (c_state c)) as [[E _] | (E & Hp & Ho)].
    + rewrite E in Hchg. contradiction.
    + right. rewrite E. subst o. auto.
  - injection Hstep as <-. left. now exists d.
  - exfalso. apply Hchg.
    pose proof (handleSubmit_begin_values event (c_state c)) as Hv.
    destruct (handleSubmit_begin event (c_state c)) as [s' | s' r];
      injection Hstep as <-; exact Hv.
  - exfalso. apply Hchg.
    destruct (c_inflight c) as [|n]; [discriminate|].
    destruct o as [a | e]; simpl in Hstep; injection Hstep as <-; reflexivity.
Qed.

Lemma values_change_only_by_witness :
  step (mount true) (Edit (Sample.form (Num 2)))
  = Some {| c_open := true;
            c_state := setValues (Sample.form (Num 2)) initial;
            c_inflight := 0; c_trace := [] |}
  /\ Sample.form (Num 2) <> onlyQuantity 1
  /\ exists d, Edit (Sample.form (Num 2)) = Edit d.
Proof.
  assert (Hne : Sample.form (Num 2) <> onlyQuantity 1) by discriminate.
  split; [reflexivity|]. split; [exact Hne|].
  destruct (values_change_only_by (mount true) (Edit (Sample.form (Num 2)))
              {| c_open := true;
                 c_state := setValues (Sample.form (Num 2)) initial;
                 c_inflight := 0; c_trace := [] |}
              eq_refl Hne)
    as [(d & Hd & _) | (H & _)].
  - now exists d.
  - discriminate H.
Defined.

(* ================================================================== *)
(** * Further properties of the event-detail hook *)





(* ================================================================== *)
(** * Further properties of the listing page *)

Lemma mapFrom_length {X Y : Type} (f : X -> nat -> Y) (xs : list X) :
  forall i, List.length (mapFrom f i xs) = List.length xs.
Proof.
  induction xs as [|x xs IH]; intros i; simpl; [reflexivity|].
  now rewrite IH.
Qed.

Lemma mapFrom_nth_error {X Y : Type} (f : X -> nat -> Y) (xs : list X) :
  forall i n,
    nth_error (mapFrom f i xs) n
    = option_map (fun x => f x (i + n)%nat) (nth_error xs n).
Proof.
  induction xs as [|x xs IH]; intros i n.
  - now destruct n.
  - destruct n as [|n]; simpl.
    + now rewrite Nat.add_0_r.
    + rewrite IH. now rewrite Nat.add_succ_r.
Qed.

(** X15. Whatever the filters, the grid follows the list position by position:
    its [n]-th cell shows the [n]-th event of [allEvents], keyed by that
    event's id and delayed by [n] tenths; the counter above the grid is the
    number of cells; and no two cells share a key. *)
Theorem grid_cell_by_position :
  forall (f : Filters) (n : nat) (e : Event),
    nth_error allEvents n = Some e ->
    nth_error (p_grid (Events f)) n
    = Some {| cell_key := id e;
              cell_delay := inject_Z (Z.of_nat n) * (1 # 10);
              cell_card := e |}
    /\ List.length (p_grid (Events f)) = p_showing (Events f)
    /\ NoDup (map cell_key (p_grid (Events f))).
Proof.
  intros f n e Hn. split; [|split].
  - unfold Events, mapi. cbn [p_grid].
    now rewrite mapFrom_nth_error, Hn.
  - unfold Events, mapi. cbn [p_grid p_showing]. apply mapFrom_length.
  - cbn. repeat (constructor; [simpl; intuition discriminate|]). constructor.
Qed.

Lemma grid_cell_by_position_witness :
  nth_error allEvents 0 = Some Sample.summit
  /\ nth_error (p_grid (Events initialFilters)) 0
     = Some {| cell_key := "1"; cell_delay := 0 * (1 # 10);
               cell_card := Sample.summit |}.
Proof.
  split; [reflexivity|].
  exact (proj1 (grid_cell_by_position initialFilters 0 Sample.summit eq_refl)).
Defined.
